(** * Glyph ML suggestions service: request validation and handlers

    A shallow embedding of [ml_suggestions/handlers/ner_suggestions.py]:
    the pydantic request and response models with their [Field]
    constraints, the three route handlers, and the way a route composes
    body validation with its handler.

    Conventions.
    - Python [int] is [Z]; Python [float] is an IEEE binary64 [float]
      (the kernel's primitive floats), so [nan] and the infinities exist
      and comparisons with them behave as in Python.
    - [Field(ge=a, le=b)] is read as documented: a value [v] passes when
      [a <= v] and [v <= b].  Every comparison with [nan] is false, so under
      this reading [nan] passes no bound; what is proved of rejected
      requests is stated on values below or above a bound.
    - A JSON body is a record of optional, already typed fields: a key that
      is absent is [None].  The type coercions pydantic performs on JSON
      scalars are outside the model.
    - [str] is [string]; a text position is an index into it. *)

From Stdlib Require Import ZArith List String Ascii Bool Lia.
From Stdlib Require Import PrimFloat SpecFloat FloatOps FloatAxioms.
From Stdlib Require Import Sorting.Sorted.
Import ListNotations.

Local Open Scope string_scope.
Local Open Scope Z_scope.

(** Decimal literals such as [0.85] denote the nearest binary64 value, as
    they do in Python. *)
Local Set Warnings "-inexact-float".

(* ------------------------------------------------------------------ *)
(** ** Validation errors and the accumulating validation functor *)

Module Pydantic.

(** The error kinds the models of this service can produce. *)
Inductive ErrorType : Type :=
| missing
| greater_than_equal
| less_than_equal
| literal_error.

Record ErrorDetails : Type := mkError {
  err_loc : string;
  err_type : ErrorType
}.

(** A [ValidationError] carries one entry per offending field. *)
Definition ValidationError : Type := list ErrorDetails.

Inductive Validated (A : Type) : Type :=
| Valid (a : A)
| Invalid (errors : ValidationError).
Arguments Valid {A} a.
Arguments Invalid {A} errors.

(** Fields are validated independently and every failure is reported. *)
Definition ap {A B : Type} (f : Validated (A -> B)) (x : Validated A)
  : Validated B :=
  match f, x with
  | Valid g, Valid a => Valid (g a)
  | Valid _, Invalid e => Invalid e
  | Invalid e, Valid _ => Invalid e
  | Invalid e1, Invalid e2 => Invalid (e1 ++ e2)%list
  end.

Definition is_valid {A : Type} (v : Validated A) : bool :=
  match v with Valid _ => true | Invalid _ => false end.

(** A field without a default: the key has to be present. *)
Definition required {A : Type} (loc : string) (v : option A) : Validated A :=
  match v with
  | Some a => Valid a
  | None => Invalid [mkError loc missing]
  end.

(** A field with a default: the default is taken as it is. *)
Definition with_default {A : Type} (d : A) (v : option A) : A :=
  match v with
  | Some a => a
  | None => d
  end.

(** [Field(ge=lo, le=hi)] on an [int]. *)
Definition int_ge_le (loc : string) (lo hi v : Z) : Validated Z :=
  if negb (lo <=? v) then Invalid [mkError loc greater_than_equal]
  else if negb (v <=? hi) then Invalid [mkError loc less_than_equal]
  else Valid v.

(** [Field(ge=lo, le=hi)] on a [float]: the value has to be greater than
    or equal to [lo] and less than or equal to [hi]. *)
Definition float_ge_le (loc : string) (lo hi v : float) : Validated float :=
  if negb (PrimFloat.leb lo v) then Invalid [mkError loc greater_than_equal]
  else if negb (PrimFloat.leb v hi) then Invalid [mkError loc less_than_equal]
  else Valid v.

End Pydantic.
Import Pydantic.

Declare Scope validated_scope.
Delimit Scope validated_scope with validated.
Notation "f <*> x" := (ap f x) (at level 52, left associativity)
  : validated_scope.

(** The closed unit interval on floats; [nan] is not in it. *)
Definition in_unit_interval (x : float) : Prop :=
  PrimFloat.leb 0%float x = true /\ PrimFloat.leb x 1%float = true.

(** Below 0 or above 1: out of range. *)
Definition outside_unit_interval (x : float) : Prop :=
  PrimFloat.ltb x 0%float = true \/ PrimFloat.ltb 1%float x = true.

(* ------------------------------------------------------------------ *)
(** ** The process state a handler can touch

    The only effect in the module is [uuid4], used by the default of
    [Entity.id].  The source of identifiers is an explicit part of the
    world: [uuid_hex n] is the hex form of the [n]-th identifier drawn. *)

Record World : Type := mkWorld {
  uuid_hex : nat -> string;
  uuid_drawn : nat
}.

Definition uuid4_hex (w : World) : string * World :=
  (uuid_hex w (uuid_drawn w), mkWorld (uuid_hex w) (S (uuid_drawn w))).

(** A handler body: it may raise a [ValidationError] while building a
    model, and it threads the world. *)
Definition Handler (A : Type) : Type := World -> Validated A * World.

Definition ret {A : Type} (a : A) : Handler A := fun w => (Valid a, w).

Definition bind {A B : Type} (m : Handler A) (k : A -> Handler B) : Handler B :=
  fun w =>
    match m w with
    | (Valid a, w') => k a w'
    | (Invalid e, w') => (Invalid e, w')
    end.

Definition lift {A : Type} (v : Validated A) : Handler A := fun w => (v, w).

Declare Scope handler_scope.
Delimit Scope handler_scope with handler.
Notation "x <- m ;; k" := (bind m (fun x => k))
  (at level 61, m at next level, right associativity) : handler_scope.

(* ------------------------------------------------------------------ *)
(** ** JSON values, for the free-form [annotation_data: dict] *)

#[warnings="-register-all"] Inductive Json : Type :=
| JNull
| JBool (b : bool)
| JInt (z : Z)
| JFloat (f : float)
| JStr (s : string)
| JList (items : list Json)
| JDict (members : list (string * Json)).

(* ------------------------------------------------------------------ *)
(** ** Named-entity suggestions *)

(** [class Entity(BaseModel)]. *)
Record Entity : Type := mkEntity {
  entity_id : string;
  entity_type : string;
  entity_start : Z;
  entity_end : Z;
  entity_text : string;
  entity_confidence : float
}.

(** The [default_factory] of [Entity.id]:
    [f"suggestion-{uuid4().hex[:8]}"]. *)
Definition Entity_default_id : Handler string :=
  fun w =>
    let (hex, w') := uuid4_hex w in
    (Valid ("suggestion-" ++ substring 0 8 hex), w').

(** Building an [Entity]: the identifier is drawn when none is given, and
    [confidence] carries [Field(ge=0.0, le=1.0)]. *)
Definition Entity_new (id : option string) (type : string) (start end_ : Z)
    (text : string) (confidence : float) : Handler Entity :=
  (i <- match id with
        | Some s => ret s
        | None => Entity_default_id
        end ;;
   lift (Valid (mkEntity i type start end_ text)
         <*> float_ge_le "confidence" 0 1 confidence)%validated)%handler.

(** The JSON body of [POST /ner]. *)
Record NERSuggestionBody : Type := mkNERSuggestionBody {
  body_text : option string;
  body_entity_types : option (list string);
  body_model : option string;
  body_max_suggestions : option Z;
  body_min_confidence : option float
}.

(** [class NERSuggestionRequest(BaseModel)]. *)
Record NERSuggestionRequest : Type := mkNERSuggestionRequest {
  ner_text : string;
  ner_entity_types : list string;
  ner_model : string;
  ner_max_suggestions : Z;
  ner_min_confidence : float
}.

Definition NERSuggestionRequest_validate (b : NERSuggestionBody)
    : Validated NERSuggestionRequest :=
  (Valid mkNERSuggestionRequest
   <*> required "text" (body_text b)
   <*> required "entity_types" (body_entity_types b)
   <*> Valid (with_default "default" (body_model b))
   <*> match body_max_suggestions b with
       | Some n => int_ge_le "max_suggestions" 1 100 n
       | None => Valid 10
       end
   <*> match body_min_confidence b with
       | Some c => float_ge_le "min_confidence" 0 1 c
       | None => Valid 0.5%float
       end)%validated.

(** [class NERSuggestionResponse(BaseModel)]. *)
Record NERSuggestionResponse : Type := mkNERSuggestionResponse {
  nresp_suggestions : list Entity;
  nresp_model : string;
  nresp_processing_time_ms : float
}.

(** No field of the response model is constrained. *)
Definition NERSuggestionResponse_new (suggestions : list Entity)
    (model : string) (processing_time_ms : float)
    : Validated NERSuggestionResponse :=
  Valid (mkNERSuggestionResponse suggestions model processing_time_ms).

(** [async def get_ner_suggestions(request)]. *)
Definition get_ner_suggestions (request : NERSuggestionRequest)
    : Handler NERSuggestionResponse :=
  lift (NERSuggestionResponse_new [] (ner_model request) 0%float).

(* ------------------------------------------------------------------ *)
(** ** Quality prediction *)

(** The JSON body of [POST /quality]. *)
Record QualityPredictionBody : Type := mkQualityPredictionBody {
  body_annotation_data : option (list (string * Json));
  body_q_user_id : option string;
  body_task_type : option string
}.

(** [class QualityPredictionRequest(BaseModel)]. *)
Record QualityPredictionRequest : Type := mkQualityPredictionRequest {
  q_annotation_data : list (string * Json);
  q_user_id : string;
  q_task_type : string
}.

Definition QualityPredictionRequest_validate (b : QualityPredictionBody)
    : Validated QualityPredictionRequest :=
  (Valid mkQualityPredictionRequest
   <*> required "annotation_data" (body_annotation_data b)
   <*> required "user_id" (body_q_user_id b)
   <*> required "task_type" (body_task_type b))%validated.

(** [class QualityPredictionResponse(BaseModel)]. *)
Record QualityPredictionResponse : Type := mkQualityPredictionResponse {
  qresp_predicted_quality : float;
  qresp_confidence : float;
  qresp_risk_factors : list string
}.

(** Both scores carry [Field(ge=0.0, le=1.0)]. *)
Definition QualityPredictionResponse_new (predicted_quality confidence : float)
    (risk_factors : list string) : Validated QualityPredictionResponse :=
  (Valid mkQualityPredictionResponse
   <*> float_ge_le "predicted_quality" 0 1 predicted_quality
   <*> float_ge_le "confidence" 0 1 confidence
   <*> Valid risk_factors)%validated.

(** [async def predict_quality(request)]. *)
Definition predict_quality (request : QualityPredictionRequest)
    : Handler QualityPredictionResponse :=
  lift (QualityPredictionResponse_new 0.85%float 0.7%float []).

(* ------------------------------------------------------------------ *)
(** ** Active-learning task selection *)

(** [Literal["uncertainty", "diversity", "hybrid"]]. *)
Inductive Strategy : Type :=
| uncertainty
| diversity
| hybrid.

Definition Strategy_value (s : Strategy) : string :=
  match s with
  | uncertainty => "uncertainty"
  | diversity => "diversity"
  | hybrid => "hybrid"
  end.

Definition Strategy_validate (loc : string) (s : string) : Validated Strategy :=
  if String.eqb s "uncertainty" then Valid uncertainty
  else if String.eqb s "diversity" then Valid diversity
  else if String.eqb s "hybrid" then Valid hybrid
  else Invalid [mkError loc literal_error].

(** The JSON body of [POST /active-learning]. *)
Record ActiveLearningBody : Type := mkActiveLearningBody {
  body_project_id : option string;
  body_al_user_id : option string;
  body_strategy : option string;
  body_count : option Z
}.

(** [class ActiveLearningRequest(BaseModel)]. *)
Record ActiveLearningRequest : Type := mkActiveLearningRequest {
  al_project_id : string;
  al_user_id : string;
  al_strategy : Strategy;
  al_count : Z
}.

Definition ActiveLearningRequest_validate (b : ActiveLearningBody)
    : Validated ActiveLearningRequest :=
  (Valid mkActiveLearningRequest
   <*> required "project_id" (body_project_id b)
   <*> required "user_id" (body_al_user_id b)
   <*> match body_strategy b with
       | Some s => Strategy_validate "strategy" s
       | None => Valid uncertainty
       end
   <*> match body_count b with
       | Some n => int_ge_le "count" 1 100 n
       | None => Valid 10
       end)%validated.

(** [class ActiveLearningResponse(BaseModel)]; [selection_scores] is a
    [dict[str, float]], kept as its items in insertion order. *)
Record ActiveLearningResponse : Type := mkActiveLearningResponse {
  alresp_task_ids : list string;
  alresp_strategy_used : string;
  alresp_selection_scores : list (string * float)
}.

Definition ActiveLearningResponse_new (task_ids : list string)
    (strategy_used : string) (selection_scores : list (string * float))
    : Validated ActiveLearningResponse :=
  Valid (mkActiveLearningResponse task_ids strategy_used selection_scores).

(** [async def select_tasks_for_annotation(request)]. *)
Definition select_tasks_for_annotation (request : ActiveLearningRequest)
    : Handler ActiveLearningResponse :=
  lift (ActiveLearningResponse_new [] (Strategy_value (al_strategy request)) []).

(* ------------------------------------------------------------------ *)
(** ** Routes

    [@router.post(path, response_model=...)]: the body is validated into
    the request model first; a body that fails is answered with 422 and the
    handler is not called.  An exception raised by the handler is a 500. *)

Inductive HttpResult (A : Type) : Type :=
| Http200 (body : A)
| Http422 (detail : ValidationError)
| Http500.
Arguments Http200 {A} body.
Arguments Http422 {A} detail.
Arguments Http500 {A}.

Definition post {Body Req Resp : Type} (validate : Body -> Validated Req)
    (handler : Req -> Handler Resp) (b : Body) (w : World)
    : HttpResult Resp * World :=
  match validate b with
  | Invalid e => (Http422 e, w)
  | Valid request =>
      match handler request w with
      | (Valid response, w') => (Http200 response, w')
      | (Invalid _, w') => (Http500, w')
      end
  end.

Definition post_ner := post NERSuggestionRequest_validate get_ner_suggestions.
Definition post_quality := post QualityPredictionRequest_validate predict_quality.
Definition post_active_learning :=
  post ActiveLearningRequest_validate select_tasks_for_annotation.

(** What the client gets back. *)
Definition answer {A : Type} (r : HttpResult A * World) : HttpResult A := fst r.

Definition rejected {A : Type} (r : HttpResult A) : Prop :=
  exists detail, r = Http422 detail /\ detail <> [].

(* ------------------------------------------------------------------ *)
(** ** Vocabulary of the properties *)

(** Python's [s[start:stop]] on a string, with negative positions counted
    from the end and both positions clipped to the string. *)
Definition str_len (s : string) : Z := Z.of_nat (String.length s).

Definition clip_index (len i : Z) : Z :=
  if i <? 0 then Z.max 0 (i + len) else Z.min i len.

Definition slice (s : string) (start stop : Z) : string :=
  let lo := clip_index (str_len s) start in
  let hi := clip_index (str_len s) stop in
  if lo <? hi then substring (Z.to_nat lo) (Z.to_nat (hi - lo)) s else "".

(** The span of an entity lies inside the text and denotes its [text]. *)
Definition span_invariant (text : string) (e : Entity) : Prop :=
  0 <= entity_start e /\ entity_start e < entity_end e /\
  entity_end e <= str_len text /\
  entity_text e = slice text (entity_start e) (entity_end e).

(** A suggestion respects the request: confident enough, of a requested
    type. *)
Definition admissible (request : NERSuggestionRequest) (e : Entity) : Prop :=
  PrimFloat.leb (ner_min_confidence request) (entity_confidence e) = true /\
  In (entity_type e) (ner_entity_types request).

(** A task of a project's pool, with the model's uncertainty on it when
    there is one. *)
Record TaskDescriptor : Type := mkTask {
  task_id : string;
  task_uncertainty : option float
}.

Definition uncertainty_signal (t : TaskDescriptor) : float :=
  match task_uncertainty t with
  | Some u => u
  | None => 0%float
  end.

Definition more_uncertain (a b : TaskDescriptor) : Prop :=
  PrimFloat.leb (uncertainty_signal b) (uncertainty_signal a) = true.

(** [ids] names every task of [pool], most uncertain first. *)
Definition all_by_descending_uncertainty (pool : list TaskDescriptor)
    (ids : list string) : Prop :=
  exists chosen : list TaskDescriptor,
    ids = map task_id chosen /\
    (forall t, In t pool -> In t chosen) /\
    (forall t, In t chosen -> In t pool) /\
    StronglySorted more_uncertain chosen.

(* ------------------------------------------------------------------ *)
(** ** Sample requests *)

Definition world0 : World := mkWorld (fun _ => "0123456789abcdef0123456789abcdef") 0.


(** The body of [test_ner_suggestions]. *)
Definition test_ner_body : NERSuggestionBody :=
  mkNERSuggestionBody (Some "Patient has diabetes and hypertension.")
    (Some ["condition"; "medication"]) None None None.

(** The body of [test_quality_prediction]: [{"entities": []}]. *)
Definition test_quality_body : QualityPredictionBody :=
  mkQualityPredictionBody (Some [("entities", JList [])]) (Some "user-123")
    (Some "ner").

(** The body of [test_active_learning]. *)
Definition test_active_learning_body : ActiveLearningBody :=
  mkActiveLearningBody (Some "project-123") (Some "user-123")
    (Some "uncertainty") (Some 5).

Definition bogus_strategy_body : ActiveLearningBody :=
  mkActiveLearningBody (Some "project-123") (Some "user-123")
    (Some "bogus") (Some 5).

Definition zero_count_body : ActiveLearningBody :=
  mkActiveLearningBody (Some "project-123") (Some "user-123") None (Some 0).




(** A pool of three tasks with distinct uncertainties. *)
Definition pool3 : list TaskDescriptor :=
  [mkTask "task-a" (Some 0.25%float); mkTask "task-b" (Some 0.75%float);
   mkTask "task-c" (Some 0.5%float)].

(* ------------------------------------------------------------------ *)
(** ** Field validators *)

(* ------------------------------------------------------------------ *)
(** ** Reading a validation report *)

(** The errors a validation carries; none when it went through. *)
Definition errors_of {A : Type} (v : Validated A) : ValidationError :=
  match v with
  | Valid _ => []
  | Invalid e => e
  end.

(** The fields a report names, in the order it names them. *)
Definition named (d : ValidationError) : list string := map err_loc d.

(** The recognized strategy names. *)
Definition strategy_names : list string := ["uncertainty"; "diversity"; "hybrid"].

(** Two identifier sources: consecutive draws that agree on their first
    eight hex digits and differ later, and draws that differ at once. *)
Definition world_shared_prefix : World :=
  mkWorld (fun n => match n with
                    | O => "deadbeef00000000000000000000000a"
                    | S _ => "deadbeef11111111111111111111111b"
                    end) 0.

Definition world_distinct_prefix : World :=
  mkWorld (fun n => match n with
                    | O => "0a0a0a0a00000000000000000000000a"
                    | S _ => "1b1b1b1b00000000000000000000000a"
                    end) 0.


(** The order on binary64 values: [x < y] excludes [y <= x]. *)
Lemma SFcompare_Lt_antisym (a b : spec_float) :
  SFcompare a b = Some Lt -> SFcompare b a = Some Gt.
Proof.
  destruct a as [sa | sa | | sa ma ea], b as [sb | sb | | sb mb eb]; simpl;
    try discriminate;
    try (destruct sa; discriminate || reflexivity);
    try (destruct sb; discriminate || reflexivity);
    try (destruct sa, sb; discriminate || reflexivity).
  destruct sa, sb; try discriminate; try reflexivity.
  all: rewrite (Z.compare_antisym ea eb).
  all: destruct (ea ?= eb) eqn:E; simpl; try discriminate; try reflexivity.
  all: change (Pos.compare_cont Eq mb ma) with (Pos.compare mb ma);
       change (Pos.compare_cont Eq ma mb) with (Pos.compare ma mb).
  all: rewrite (Pos.compare_antisym ma mb).
  all: destruct (ma ?= mb)%positive; simpl; try discriminate; try reflexivity.
Qed.

Lemma ltb_leb_false (x y : float) :
  PrimFloat.ltb x y = true -> PrimFloat.leb y x = false.
Proof.
  rewrite ltb_spec, leb_spec. unfold SFltb, SFleb.
  destruct (SFcompare (Prim2SF x) (Prim2SF y)) as [[| |] |] eqn:E;
    try discriminate.
  intros _. rewrite (SFcompare_Lt_antisym _ _ E). reflexivity.
Qed.

Lemma outside_not_inside (x : float) :
  outside_unit_interval x -> ~ in_unit_interval x.
Proof.
  intros [H | H] [Hlo Hhi]; apply ltb_leb_false in H; congruence.
Qed.

Section FieldValidators.

Variable loc : string.

Lemma int_ge_le_Valid (lo hi v v' : Z) :
  int_ge_le loc lo hi v = Valid v' <-> (lo <= v <= hi /\ v' = v).
Proof.
  unfold int_ge_le.
  destruct (Z.leb_spec lo v) as [Hlo | Hlo]; simpl.
  - destruct (Z.leb_spec v hi) as [Hhi | Hhi]; simpl.
    + split; [intros [= <-]; lia | intros [_ ->]; reflexivity].
    + split; [discriminate | lia].
  - split; [discriminate | lia].
Qed.

Lemma int_ge_le_below (lo hi v : Z) :
  v < lo -> int_ge_le loc lo hi v = Invalid [mkError loc greater_than_equal].
Proof.
  intros H. unfold int_ge_le.
  destruct (Z.leb_spec lo v); [lia | reflexivity].
Qed.

Lemma int_ge_le_above (lo hi v : Z) :
  lo <= v -> hi < v ->
  int_ge_le loc lo hi v = Invalid [mkError loc less_than_equal].
Proof.
  intros Hlo Hhi. unfold int_ge_le.
  destruct (Z.leb_spec lo v); [simpl | lia].
  destruct (Z.leb_spec v hi); [lia | reflexivity].
Qed.

Lemma int_ge_le_outside (lo hi v : Z) :
  v < lo \/ hi < v -> exists e, int_ge_le loc lo hi v = Invalid [e].
Proof.
  intros H. destruct (Z.lt_ge_cases v lo) as [Hlt | Hge].
  - eexists. apply int_ge_le_below. exact Hlt.
  - eexists. apply int_ge_le_above; lia.
Qed.

Lemma unit_float_Valid (v v' : float) :
  float_ge_le loc 0 1 v = Valid v' <-> (in_unit_interval v /\ v' = v).
Proof.
  unfold float_ge_le, in_unit_interval.
  destruct (PrimFloat.leb 0 v); simpl.
  - destruct (PrimFloat.leb v 1); simpl.
    + split; [intros [= <-]; auto | intros [_ ->]; reflexivity].
    + split; [discriminate | intros [[_ H] _]; discriminate].
  - split; [discriminate | intros [[H _] _]; discriminate].
Qed.


End FieldValidators.

(** An invalid argument makes the whole application invalid. *)
Lemma ap_Invalid_r {A B : Type} (f : Validated (A -> B)) (e : ErrorDetails) :
  exists d, (f <*> Invalid [e])%validated = Invalid d /\ d <> [].
Proof.
  destruct f as [g | errs]; simpl.
  - exists [e]. split; [reflexivity | discriminate].
  - exists (errs ++ [e])%list. split; [reflexivity |].
    intros H. apply app_eq_nil in H. destruct H as [_ H]. discriminate.
Qed.

Lemma ap_Invalid_l {A B : Type} (d : ValidationError) (x : Validated A) :
  d <> [] ->
  exists d', (@Invalid (A -> B) d <*> x)%validated = Invalid d' /\ d' <> [].
Proof.
  intros Hd. destruct x as [a | errs]; simpl.
  - exists d. split; [reflexivity | exact Hd].
  - exists (d ++ errs)%list. split; [reflexivity |].
    intros H. apply app_eq_nil in H. destruct H as [H _]. contradiction.
Qed.

Lemma ap_Valid_inv {A B : Type} (f : Validated (A -> B)) (x : Validated A)
    (b : B) :
  (f <*> x)%validated = Valid b ->
  exists g a, f = Valid g /\ x = Valid a /\ b = g a.
Proof.
  destruct f as [g | e1], x as [a | e2]; simpl; try discriminate.
  intros [= <-]. exists g, a. auto.
Qed.

(** A rejected body never reaches the handler. *)
Lemma post_Invalid {Body Req Resp : Type} (validate : Body -> Validated Req)
    (handler : Req -> Handler Resp) (b : Body) (w : World)
    (d : ValidationError) :
  validate b = Invalid d -> post validate handler b w = (Http422 d, w).
Proof. intros H. unfold post. rewrite H. reflexivity. Qed.

Lemma post_Valid {Body Req Resp : Type} (validate : Body -> Validated Req)
    (handler : Req -> Handler Resp) (b : Body) (w w' : World)
    (request : Req) (response : Resp) :
  validate b = Valid request ->
  handler request w = (Valid response, w') ->
  post validate handler b w = (Http200 response, w').
Proof. intros Hv Hh. unfold post. rewrite Hv, Hh. reflexivity. Qed.

Lemma post_Http200_inv {Body Req Resp : Type} (validate : Body -> Validated Req)
    (handler : Req -> Handler Resp) (b : Body) (w w' : World)
    (response : Resp) :
  post validate handler b w = (Http200 response, w') ->
  exists request,
    validate b = Valid request /\ handler request w = (Valid response, w').
Proof.
  unfold post. destruct (validate b) as [request | d]; [| discriminate].
  destruct (handler request w) as [[response' | d] w''] eqn:Hh;
    [| discriminate].
  intros [= <- <-]. exists request. auto.
Qed.

(* ------------------------------------------------------------------ *)
(** ** The models at work *)

Example slice_inside :
  slice "Patient has diabetes and hypertension." 12 20 = "diabetes".
Proof. reflexivity. Qed.

Example slice_negative_and_clipped : slice "abc" (-2) 10 = "bc".
Proof. reflexivity. Qed.

Example slice_empty_when_reversed : slice "abc" 2 1 = "".
Proof. reflexivity. Qed.

(** An entity built without an identifier draws one from the world. *)
Example Entity_new_draws_identifier :
  Entity_new None "condition" 12 20 "diabetes" 0.9%float world0
  = (Valid (mkEntity "suggestion-01234567" "condition" 12 20 "diabetes"
              0.9%float),
     mkWorld (uuid_hex world0) 1).
Proof. reflexivity. Qed.

Example Entity_new_span_invariant :
  span_invariant "Patient has diabetes and hypertension."
    (mkEntity "suggestion-01234567" "condition" 12 20 "diabetes" 0.9%float).
Proof. unfold span_invariant, str_len. simpl. repeat split; lia. Qed.

Example Entity_new_checks_confidence :
  fst (Entity_new (Some "e1") "condition" 12 20 "diabetes" 1.5%float world0)
  = Invalid [mkError "confidence" less_than_equal].
Proof. reflexivity. Qed.

Example test_ner_body_validates :
  NERSuggestionRequest_validate test_ner_body
  = Valid (mkNERSuggestionRequest "Patient has diabetes and hypertension."
             ["condition"; "medication"] "default" 10 0.5%float).
Proof. reflexivity. Qed.

Example every_failure_is_reported :
  NERSuggestionRequest_validate
    (mkNERSuggestionBody None (Some []) None (Some 0) (Some 2%float))
  = Invalid [mkError "text" missing;
             mkError "max_suggestions" greater_than_equal;
             mkError "min_confidence" less_than_equal].
Proof. reflexivity. Qed.

Example bounds_are_inclusive :
  is_valid (NERSuggestionRequest_validate
              (mkNERSuggestionBody (Some "") (Some []) None (Some 100)
                 (Some 1%float))) = true /\
  is_valid (NERSuggestionRequest_validate
              (mkNERSuggestionBody (Some "") (Some []) None (Some 1)
                 (Some 0%float))) = true.
Proof. split; reflexivity. Qed.

Example pool3_ranked :
  all_by_descending_uncertainty pool3 ["task-b"; "task-c"; "task-a"].
Proof.
  exists [mkTask "task-b" (Some 0.75%float); mkTask "task-c" (Some 0.5%float);
          mkTask "task-a" (Some 0.25%float)].
  split; [reflexivity |]. split; [| split].
  - simpl. intuition.
  - simpl. intuition.
  - repeat constructor.
Qed.

(* ------------------------------------------------------------------ *)
(** ** What a validated request says about its body *)

Lemma default_min_confidence_in_range : in_unit_interval 0.5%float.
Proof. split; reflexivity. Qed.

Lemma NERSuggestionRequest_validate_Valid (b : NERSuggestionBody)
    (r : NERSuggestionRequest) :
  NERSuggestionRequest_validate b = Valid r ->
  body_text b = Some (ner_text r) /\
  body_entity_types b = Some (ner_entity_types r) /\
  ner_model r = with_default "default" (body_model b) /\
  ner_max_suggestions r = with_default 10 (body_max_suggestions b) /\
  1 <= ner_max_suggestions r <= 100 /\
  ner_min_confidence r = with_default 0.5%float (body_min_confidence b) /\
  in_unit_interval (ner_min_confidence r).
Proof.
  unfold NERSuggestionRequest_validate. intros H.
  apply ap_Valid_inv in H. destruct H as (g4 & c & H & Hc & ->).
  apply ap_Valid_inv in H. destruct H as (g3 & n & H & Hn & ->).
  apply ap_Valid_inv in H. destruct H as (g2 & m & H & Hm & ->).
  apply ap_Valid_inv in H. destruct H as (g1 & ts & H & Hts & ->).
  apply ap_Valid_inv in H. destruct H as (g0 & t & H & Ht & ->).
  injection H as <-. injection Hm as <-. simpl.
  destruct (body_text b) as [t' |]; [injection Ht as -> | discriminate].
  destruct (body_entity_types b) as [ts' |]; [injection Hts as -> | discriminate].
  assert (Hn' : n = with_default 10 (body_max_suggestions b) /\ 1 <= n <= 100).
  { destruct (body_max_suggestions b) as [n' |]; simpl.
    - apply int_ge_le_Valid in Hn. destruct Hn as [Hr ->]. auto.
    - injection Hn as <-. split; [reflexivity | lia]. }
  assert (Hc' : c = with_default 0.5%float (body_min_confidence b)
                /\ in_unit_interval c).
  { destruct (body_min_confidence b) as [c' |]; simpl.
    - apply unit_float_Valid in Hc. destruct Hc as [Hr ->]. auto.
    - injection Hc as <-. split;
        [reflexivity | apply default_min_confidence_in_range]. }
  destruct Hn' as [Hn1 Hn2], Hc' as [Hc1 Hc2].
  repeat split; try reflexivity; try assumption; try lia; apply Hc2.
Qed.

Lemma ActiveLearningRequest_validate_Valid (b : ActiveLearningBody)
    (r : ActiveLearningRequest) :
  ActiveLearningRequest_validate b = Valid r ->
  body_project_id b = Some (al_project_id r) /\
  body_al_user_id b = Some (al_user_id r) /\
  Strategy_value (al_strategy r)
    = with_default "uncertainty" (body_strategy b) /\
  al_count r = with_default 10 (body_count b) /\
  1 <= al_count r <= 100.
Proof.
  unfold ActiveLearningRequest_validate. intros H.
  apply ap_Valid_inv in H. destruct H as (g3 & n & H & Hn & ->).
  apply ap_Valid_inv in H. destruct H as (g2 & s & H & Hs & ->).
  apply ap_Valid_inv in H. destruct H as (g1 & u & H & Hu & ->).
  apply ap_Valid_inv in H. destruct H as (g0 & p & H & Hp & ->).
  injection H as <-. simpl.
  destruct (body_project_id b) as [p' |]; [injection Hp as -> | discriminate].
  destruct (body_al_user_id b) as [u' |]; [injection Hu as -> | discriminate].
  repeat split; try reflexivity.
  - destruct (body_strategy b) as [s' |]; simpl.
    + unfold Strategy_validate in Hs.
      destruct (String.eqb s' "uncertainty") eqn:E1;
        [apply String.eqb_eq in E1; subst s'; injection Hs as <-;
         reflexivity |].
      destruct (String.eqb s' "diversity") eqn:E2;
        [apply String.eqb_eq in E2; subst s'; injection Hs as <-;
         reflexivity |].
      destruct (String.eqb s' "hybrid") eqn:E3;
        [apply String.eqb_eq in E3; subst s'; injection Hs as <-;
         reflexivity | discriminate].
    + injection Hs as <-. reflexivity.
  - destruct (body_count b) as [n' |]; simpl.
    + apply int_ge_le_Valid in Hn. destruct Hn as [_ ->]. reflexivity.
    + injection Hn as <-. reflexivity.
  - destruct (body_count b) as [n' |].
    + apply int_ge_le_Valid in Hn. lia.
    + injection Hn as <-. lia.
  - destruct (body_count b) as [n' |].
    + apply int_ge_le_Valid in Hn. lia.
    + injection Hn as <-. lia.
Qed.

Lemma QualityPredictionRequest_validate_Valid (b : QualityPredictionBody)
    (r : QualityPredictionRequest) :
  QualityPredictionRequest_validate b = Valid r ->
  body_annotation_data b = Some (q_annotation_data r) /\
  body_q_user_id b = Some (q_user_id r) /\
  body_task_type b = Some (q_task_type r).
Proof.
  unfold QualityPredictionRequest_validate. intros H.
  destruct (body_annotation_data b) as [a |]; simpl in H.
  - destruct (body_q_user_id b) as [u |]; simpl in H.
    + destruct (body_task_type b) as [t |]; simpl in H; [| discriminate].
      injection H as <-. auto.
    + destruct (body_task_type b); discriminate.
  - destruct (body_q_user_id b), (body_task_type b); discriminate.
Qed.

(* ------------------------------------------------------------------ *)
(** ** Bodies that are turned away *)



Lemma AL_count_outside (b : ActiveLearningBody) (n : Z) :
  body_count b = Some n -> n < 1 \/ 100 < n ->
  exists d, ActiveLearningRequest_validate b = Invalid d /\ d <> [].
Proof.
  intros Hb Hn. unfold ActiveLearningRequest_validate. rewrite Hb.
  destruct (int_ge_le_outside "count" 1 100 n Hn) as [e ->].
  apply ap_Invalid_r.
Qed.

Lemma Strategy_validate_unknown (loc s : string) :
  s <> "uncertainty" -> s <> "diversity" -> s <> "hybrid" ->
  Strategy_validate loc s = Invalid [mkError loc literal_error].
Proof.
  intros H1 H2 H3. unfold Strategy_validate.
  apply String.eqb_neq in H1, H2, H3. rewrite H1, H2, H3. reflexivity.
Qed.

Lemma AL_strategy_unknown (b : ActiveLearningBody) (s : string) :
  body_strategy b = Some s ->
  s <> "uncertainty" -> s <> "diversity" -> s <> "hybrid" ->
  exists d, ActiveLearningRequest_validate b = Invalid d /\ d <> [].
Proof.
  intros Hb H1 H2 H3. unfold ActiveLearningRequest_validate. rewrite Hb.
  rewrite (Strategy_validate_unknown "strategy" s H1 H2 H3).
  match goal with
  | |- context [ (?f <*> Invalid [?e])%validated ] =>
      destruct (ap_Invalid_r f e) as (d & -> & Hd)
  end.
  apply ap_Invalid_l. exact Hd.
Qed.

Lemma post_rejects {Body Req Resp : Type} (validate : Body -> Validated Req)
    (handler : Req -> Handler Resp) (b : Body) (w : World) :
  (exists d, validate b = Invalid d /\ d <> []) ->
  rejected (answer (post validate handler b w)) /\
  snd (post validate handler b w) = w.
Proof.
  intros (d & Hv & Hd). rewrite (post_Invalid _ _ _ _ _ Hv). simpl.
  split; [exists d; auto | reflexivity].
Qed.

Lemma rejected_not_Http200 {A : Type} (r : HttpResult A) (body : A) :
  rejected r -> r <> Http200 body.
Proof. intros (d & -> & _). discriminate. Qed.

(* ------------------------------------------------------------------ *)
(** ** The handlers *)

Lemma get_ner_suggestions_eq (request : NERSuggestionRequest) (w : World) :
  get_ner_suggestions request w
  = (Valid (mkNERSuggestionResponse [] (ner_model request) 0%float), w).
Proof. reflexivity. Qed.

Lemma predict_quality_eq (request : QualityPredictionRequest) (w : World) :
  predict_quality request w
  = (Valid (mkQualityPredictionResponse 0.85%float 0.7%float []), w).
Proof. reflexivity. Qed.

Lemma select_tasks_for_annotation_eq (request : ActiveLearningRequest)
    (w : World) :
  select_tasks_for_annotation request w
  = (Valid (mkActiveLearningResponse []
              (Strategy_value (al_strategy request)) []), w).
Proof. reflexivity. Qed.

(** C2: for every valid request the handlers answer with their fixed
    placeholders: the NER route with an empty suggestion list, the quality
    route with [predicted_quality] exactly 0.85, the active-learning route
    with an empty list of task identifiers. *)
Theorem placeholder_responses
    (bn : NERSuggestionBody) (bq : QualityPredictionBody)
    (ba : ActiveLearningBody) (w : World) :
  (forall rn, NERSuggestionRequest_validate bn = Valid rn ->
     post_ner bn w
     = (Http200 (mkNERSuggestionResponse [] (ner_model rn) 0%float), w)) /\
  (forall rq, QualityPredictionRequest_validate bq = Valid rq ->
     exists resp,
       post_quality bq w = (Http200 resp, w) /\
       qresp_predicted_quality resp = 0.85%float) /\
  (forall ra, ActiveLearningRequest_validate ba = Valid ra ->
     post_active_learning ba w
     = (Http200 (mkActiveLearningResponse []
                   (Strategy_value (al_strategy ra)) []), w)).
Proof.
  repeat apply conj.
  - intros rn Hn.
    apply (post_Valid _ _ _ _ _ _ _ Hn). apply get_ner_suggestions_eq.
  - intros rq Hq. eexists. split.
    + apply (post_Valid _ _ _ _ _ _ _ Hq). apply predict_quality_eq.
    + reflexivity.
  - intros ra Ha.
    apply (post_Valid _ _ _ _ _ _ _ Ha). apply select_tasks_for_annotation_eq.
Qed.

Lemma placeholder_responses_witness :
  post_ner test_ner_body world0
  = (Http200 (mkNERSuggestionResponse [] "default" 0%float), world0) /\
  (exists resp,
     post_quality test_quality_body world0 = (Http200 resp, world0) /\
     qresp_predicted_quality resp = 0.85%float) /\
  post_active_learning test_active_learning_body world0
  = (Http200 (mkActiveLearningResponse [] "uncertainty" []), world0).
Proof.
  destruct (placeholder_responses test_ner_body test_quality_body
              test_active_learning_body world0) as (Hn & Hq & Ha).
  repeat apply conj.
  - apply (Hn (mkNERSuggestionRequest "Patient has diabetes and hypertension."
                 ["condition"; "medication"] "default" 10 0.5%float)).
    reflexivity.
  - apply (Hq (mkQualityPredictionRequest [("entities", JList [])]
                 "user-123" "ner")).
    reflexivity.
  - apply (Ha (mkActiveLearningRequest "project-123" "user-123" uncertainty 5)).
    reflexivity.
Defined.

(** C3: for every valid NER request the route answers, with at most
    [max_suggestions] suggestions, each of them with a confidence of at
    least [min_confidence] and a type among the requested ones. *)
Theorem ner_suggestions_within_request
    (b : NERSuggestionBody) (r : NERSuggestionRequest) (w : World) :
  NERSuggestionRequest_validate b = Valid r ->
  exists resp,
    post_ner b w = (Http200 resp, w) /\
    Z.of_nat (List.length (nresp_suggestions resp)) <= ner_max_suggestions r /\
    Forall (admissible r) (nresp_suggestions resp).
Proof.
  intros Hv.
  destruct (NERSuggestionRequest_validate_Valid b r Hv)
    as (_ & _ & _ & _ & Hmax & _).
  eexists. split.
  - apply (post_Valid _ _ _ _ _ _ _ Hv). apply get_ner_suggestions_eq.
  - simpl. split; [lia | constructor].
Qed.

Lemma ner_suggestions_within_request_witness :
  exists r,
    NERSuggestionRequest_validate test_ner_body = Valid r /\
    exists resp,
      post_ner test_ner_body world0 = (Http200 resp, world0) /\
      Z.of_nat (List.length (nresp_suggestions resp)) <= ner_max_suggestions r /\
      Forall (admissible r) (nresp_suggestions resp).
Proof.
  eexists. split.
  - reflexivity.
  - apply (ner_suggestions_within_request test_ner_body _ world0).
    reflexivity.
Defined.


(** C8: every suggestion returned for a valid NER request has a span inside
    the request text, [0 <= start < end <= len(text)], and its [text] is
    the slice [text[start:end]]. *)
Theorem returned_spans_satisfy_invariant
    (b : NERSuggestionBody) (r : NERSuggestionRequest) (w : World) :
  NERSuggestionRequest_validate b = Valid r ->
  exists resp,
    post_ner b w = (Http200 resp, w) /\
    Forall (span_invariant (ner_text r)) (nresp_suggestions resp).
Proof.
  intros Hv. eexists. split.
  - apply (post_Valid _ _ _ _ _ _ _ Hv). apply get_ner_suggestions_eq.
  - simpl. constructor.
Qed.

Lemma returned_spans_satisfy_invariant_witness :
  exists r,
    NERSuggestionRequest_validate test_ner_body = Valid r /\
    exists resp,
      post_ner test_ner_body world0 = (Http200 resp, world0) /\
      Forall (span_invariant (ner_text r)) (nresp_suggestions resp).
Proof.
  eexists. split.
  - reflexivity.
  - apply (returned_spans_satisfy_invariant test_ner_body _ world0).
    reflexivity.
Defined.

(** C4: quality estimation is deterministic: two calls whose
    [annotation_data], [user_id] and [task_type] agree get the same answer,
    whatever the state of the identifier source, and leave that state
    untouched. *)
Theorem predict_quality_deterministic
    (b1 b2 : QualityPredictionBody) (w1 w2 : World) :
  body_annotation_data b1 = body_annotation_data b2 ->
  body_q_user_id b1 = body_q_user_id b2 ->
  body_task_type b1 = body_task_type b2 ->
  answer (post_quality b1 w1) = answer (post_quality b2 w2) /\
  snd (post_quality b1 w1) = w1 /\ snd (post_quality b2 w2) = w2.
Proof.
  intros Ha Hu Ht.
  assert (Hb : b1 = b2).
  { destruct b1, b2; simpl in *. subst. reflexivity. }
  subst b2. unfold post_quality, post.
  destruct (QualityPredictionRequest_validate b1) as [r | d]; simpl.
  - repeat split.
  - repeat split.
Qed.

Lemma predict_quality_deterministic_witness :
  answer (post_quality test_quality_body world0)
  = answer (post_quality test_quality_body (mkWorld (uuid_hex world0) 7)) /\
  snd (post_quality test_quality_body world0) = world0 /\
  snd (post_quality test_quality_body (mkWorld (uuid_hex world0) 7))
  = mkWorld (uuid_hex world0) 7.
Proof.
  apply (predict_quality_deterministic test_quality_body test_quality_body
           world0 (mkWorld (uuid_hex world0) 7)); reflexivity.
Defined.

Lemma placeholder_scores_in_range :
  in_unit_interval 0.85%float /\ in_unit_interval 0.7%float.
Proof. repeat split; reflexivity. Qed.

(** C5: every well-formed quality request is answered with a
    [predicted_quality] and a [confidence] in [[0,1]] and with risk factors
    free of duplicates. *)
Theorem quality_estimate_well_formed
    (b : QualityPredictionBody) (r : QualityPredictionRequest) (w : World) :
  QualityPredictionRequest_validate b = Valid r ->
  exists resp,
    post_quality b w = (Http200 resp, w) /\
    in_unit_interval (qresp_predicted_quality resp) /\
    in_unit_interval (qresp_confidence resp) /\
    NoDup (qresp_risk_factors resp).
Proof.
  intros Hv. eexists. split.
  - apply (post_Valid _ _ _ _ _ _ _ Hv). apply predict_quality_eq.
  - simpl. destruct placeholder_scores_in_range as [Hq Hc].
    repeat split; try apply Hq; try apply Hc. constructor.
Qed.

Lemma quality_estimate_well_formed_witness :
  exists resp,
    post_quality test_quality_body world0 = (Http200 resp, world0) /\
    in_unit_interval (qresp_predicted_quality resp) /\
    in_unit_interval (qresp_confidence resp) /\
    NoDup (qresp_risk_factors resp).
Proof.
  apply (quality_estimate_well_formed test_quality_body
           (mkQualityPredictionRequest [("entities", JList [])] "user-123" "ner")
           world0).
  reflexivity.
Defined.

(** C6: an active-learning request whose strategy is none of
    "uncertainty", "diversity", "hybrid", or whose count is below 1, is
    turned away with a validation error; no selection is returned. *)
Theorem unknown_strategy_or_small_count_rejected
    (b : ActiveLearningBody) (w : World) :
  (exists s, body_strategy b = Some s /\
             s <> "uncertainty" /\ s <> "diversity" /\ s <> "hybrid") \/
  (exists n, body_count b = Some n /\ n < 1) ->
  rejected (answer (post_active_learning b w)) /\
  (forall resp, answer (post_active_learning b w) <> Http200 resp) /\
  snd (post_active_learning b w) = w.
Proof.
  intros H.
  assert (Hv : exists d, ActiveLearningRequest_validate b = Invalid d /\ d <> []).
  { destruct H as [(s & Hs & H1 & H2 & H3) | (n & Hn & Hlt)].
    - apply (AL_strategy_unknown b s Hs H1 H2 H3).
    - apply (AL_count_outside b n Hn). left. exact Hlt. }
  destruct (post_rejects ActiveLearningRequest_validate
              select_tasks_for_annotation b w Hv) as [Hr Hw].
  split; [exact Hr | split; [| exact Hw]].
  intros resp. apply rejected_not_Http200. exact Hr.
Qed.

Lemma unknown_strategy_or_small_count_rejected_witness :
  (rejected (answer (post_active_learning bogus_strategy_body world0)) /\
   (forall resp,
      answer (post_active_learning bogus_strategy_body world0) <> Http200 resp) /\
   snd (post_active_learning bogus_strategy_body world0) = world0) /\
  (rejected (answer (post_active_learning zero_count_body world0)) /\
   (forall resp,
      answer (post_active_learning zero_count_body world0) <> Http200 resp) /\
   snd (post_active_learning zero_count_body world0) = world0).
Proof.
  split.
  - apply (unknown_strategy_or_small_count_rejected bogus_strategy_body world0).
    left. exists "bogus". repeat split; discriminate.
  - apply (unknown_strategy_or_small_count_rejected zero_count_body world0).
    right. exists 0. split; [reflexivity | lia].
Defined.





(** C1 as stated does not hold: with a pool of three tasks, strategy
    "uncertainty" and a count of 5, the answer does not name the three
    tasks. *)
Lemma three_task_pool_not_returned :
  exists resp,
    post_active_learning test_active_learning_body world0
    = (Http200 resp, world0) /\
    ~ all_by_descending_uncertainty pool3 (alresp_task_ids resp).
Proof.
  eexists. split; [reflexivity |].
  simpl. intros (chosen & Hids & Hall & _).
  symmetry in Hids. apply map_eq_nil in Hids. subst chosen.
  apply (Hall (mkTask "task-a" (Some 0.25%float))). left. reflexivity.
Qed.

(** C1, amended: with strategy "uncertainty" and a count of 5, whatever the
    pool (three tasks, fewer than the count, included), the request is not
    an error and the answer names no task: [task_ids] and
    [selection_scores] are empty and [strategy_used] is "uncertainty". *)
Theorem uncertainty_selection_names_no_task
    (pool : list TaskDescriptor) (b : ActiveLearningBody)
    (r : ActiveLearningRequest) (w : World) :
  List.length pool = 3%nat ->
  ActiveLearningRequest_validate b = Valid r ->
  al_strategy r = uncertainty ->
  al_count r = 5 ->
  post_active_learning b w
  = (Http200 (mkActiveLearningResponse [] "uncertainty" []), w).
Proof.
  intros _ Hv Hs _.
  apply (post_Valid _ _ _ _ _ _ _ Hv).
  rewrite select_tasks_for_annotation_eq, Hs. reflexivity.
Qed.

Lemma uncertainty_selection_names_no_task_witness :
  post_active_learning test_active_learning_body world0
  = (Http200 (mkActiveLearningResponse [] "uncertainty" []), world0).
Proof.
  apply (uncertainty_selection_names_no_task pool3 test_active_learning_body
           (mkActiveLearningRequest "project-123" "user-123" uncertainty 5)
           world0); reflexivity.
Defined.

(* ------------------------------------------------------------------ *)
(** ** How validation composes *)

Lemma is_valid_ap {A B : Type} (f : Validated (A -> B)) (x : Validated A) :
  is_valid (f <*> x)%validated = is_valid f && is_valid x.
Proof. destruct f, x; reflexivity. Qed.

Lemma errors_of_ap {A B : Type} (f : Validated (A -> B)) (x : Validated A) :
  errors_of (f <*> x)%validated = (errors_of f ++ errors_of x)%list.
Proof. destruct f, x; simpl; rewrite ?app_nil_r; reflexivity. Qed.

Lemma is_valid_required {A : Type} (loc : string) (v : option A) :
  is_valid (required loc v) = true <-> v <> None.
Proof.
  destruct v; simpl; split; congruence.
Qed.

Lemma is_valid_int_ge_le (loc : string) (lo hi v : Z) :
  is_valid (int_ge_le loc lo hi v) = true <-> lo <= v <= hi.
Proof.
  unfold int_ge_le.
  destruct (Z.leb_spec lo v); simpl; [| split; [discriminate | lia]].
  destruct (Z.leb_spec v hi); simpl; split;
    try discriminate; try lia; reflexivity.
Qed.

Lemma is_valid_unit_float (loc : string) (v : float) :
  is_valid (float_ge_le loc 0 1 v) = true <-> in_unit_interval v.
Proof.
  unfold float_ge_le, in_unit_interval.
  destruct (PrimFloat.leb 0 v), (PrimFloat.leb v 1); simpl;
    split; try discriminate; intuition (try discriminate).
Qed.

Lemma is_valid_Strategy_validate (loc s : string) :
  is_valid (Strategy_validate loc s) = true <-> In s strategy_names.
Proof.
  unfold Strategy_validate, strategy_names. simpl.
  destruct (String.eqb_spec s "uncertainty") as [-> | H1]; [intuition |].
  destruct (String.eqb_spec s "diversity") as [-> | H2]; [intuition |].
  destruct (String.eqb_spec s "hybrid") as [-> | H3]; [intuition |].
  simpl. split; [discriminate |].
  intros [H | [H | [H | []]]]; symmetry in H; contradiction.
Qed.



Lemma named_float_ge_le (loc : string) (lo hi v : float) :
  named (errors_of (float_ge_le loc lo hi v))
  = if is_valid (float_ge_le loc lo hi v) then [] else [loc].
Proof.
  unfold float_ge_le. destruct (PrimFloat.leb lo v); simpl; [| reflexivity].
  destruct (PrimFloat.leb v hi); reflexivity.
Qed.

Lemma named_app (d1 d2 : ValidationError) :
  named (d1 ++ d2)%list = (named d1 ++ named d2)%list.
Proof. apply map_app. Qed.

Lemma given_iff {A : Type} (o : option A) (P : A -> Prop) :
  (forall a, o = Some a -> P a)
  <-> match o with Some a => P a | None => True end.
Proof.
  destruct o as [a |]; split; intros H.
  - apply H. reflexivity.
  - intros a' [= <-]. exact H.
  - exact I.
  - discriminate.
Qed.

(* ------------------------------------------------------------------ *)
(** ** Which bodies the request models accept *)

Lemma NER_is_valid_iff (b : NERSuggestionBody) :
  is_valid (NERSuggestionRequest_validate b) = true <->
  body_text b <> None /\ body_entity_types b <> None /\
  (forall n, body_max_suggestions b = Some n -> 1 <= n <= 100) /\
  (forall c, body_min_confidence b = Some c -> in_unit_interval c).
Proof.
  unfold NERSuggestionRequest_validate. rewrite !is_valid_ap. simpl.
  rewrite !andb_true_iff, !is_valid_required, !given_iff.
  destruct (body_max_suggestions b) as [n |],
           (body_min_confidence b) as [c |];
    rewrite ?is_valid_int_ge_le, ?is_valid_unit_float; simpl; intuition.
Qed.

Lemma AL_is_valid_iff (b : ActiveLearningBody) :
  is_valid (ActiveLearningRequest_validate b) = true <->
  body_project_id b <> None /\ body_al_user_id b <> None /\
  (forall s, body_strategy b = Some s -> In s strategy_names) /\
  (forall n, body_count b = Some n -> 1 <= n <= 100).
Proof.
  unfold ActiveLearningRequest_validate. rewrite !is_valid_ap. simpl.
  rewrite !andb_true_iff, !is_valid_required, !given_iff.
  destruct (body_strategy b) as [s |], (body_count b) as [n |];
    rewrite ?is_valid_Strategy_validate, ?is_valid_int_ge_le; simpl; intuition.
Qed.






(** X1: what [NERSuggestionRequest] accepts.  A body with [text] and
    [entity_types], a [max_suggestions] (when given) within 1..100 and a
    [min_confidence] (when given) within [[0,1]] is accepted, whatever the
    text, the list of types (empty included) and the model name are; an
    accepted body has both keys, a [max_suggestions] within 1..100 and a
    [min_confidence] neither below 0 nor above 1. *)
Theorem ner_body_acceptance (b : NERSuggestionBody) :
  (body_text b <> None -> body_entity_types b <> None ->
   (forall n, body_max_suggestions b = Some n -> 1 <= n <= 100) ->
   (forall c, body_min_confidence b = Some c -> in_unit_interval c) ->
   is_valid (NERSuggestionRequest_validate b) = true) /\
  (is_valid (NERSuggestionRequest_validate b) = true ->
   body_text b <> None /\ body_entity_types b <> None /\
   (forall n, body_max_suggestions b = Some n -> 1 <= n <= 100) /\
   (forall c, body_min_confidence b = Some c -> ~ outside_unit_interval c)).
Proof.
  split.
  - intros Ht Hts Hn Hc. apply NER_is_valid_iff. auto.
  - intros Hv. apply NER_is_valid_iff in Hv.
    destruct Hv as (Ht & Hts & Hn & Hc).
    split; [exact Ht | split; [exact Hts | split; [exact Hn |]]].
    intros c Hb Hout. apply (outside_not_inside c Hout). apply (Hc c Hb).
Qed.

Lemma ner_body_acceptance_witness :
  is_valid (NERSuggestionRequest_validate
              (mkNERSuggestionBody (Some "") (Some []) (Some "any")
                 (Some 100) (Some 1%float))) = true /\
  (forall n, body_max_suggestions test_ner_body = Some n -> 1 <= n <= 100).
Proof.
  split.
  - apply (ner_body_acceptance
             (mkNERSuggestionBody (Some "") (Some []) (Some "any")
                (Some 100) (Some 1%float))); simpl.
    + discriminate.
    + discriminate.
    + intros n [= <-]. lia.
    + intros c [= <-]. split; reflexivity.
  - apply (ner_body_acceptance test_ner_body). reflexivity.
Defined.

(** X2: [ActiveLearningRequest] accepts exactly the bodies that have
    [project_id] and [user_id], whose [strategy], when given, is one of the
    three names, and whose [count], when given, is within 1..100. *)
Theorem active_learning_body_acceptance (b : ActiveLearningBody) :
  is_valid (ActiveLearningRequest_validate b) = true <->
  body_project_id b <> None /\ body_al_user_id b <> None /\
  (forall s, body_strategy b = Some s ->
     s = "uncertainty" \/ s = "diversity" \/ s = "hybrid") /\
  (forall n, body_count b = Some n -> 1 <= n <= 100).
Proof.
  rewrite AL_is_valid_iff. unfold strategy_names. simpl.
  split; intros (Hp & Hu & Hs & Hn);
    (split; [exact Hp | split; [exact Hu | split; [| exact Hn]]]);
    intros s Hb; specialize (Hs s Hb); intuition.
Qed.



(* ------------------------------------------------------------------ *)
(** ** What an answer takes from its request *)

Lemma answer_Http200_inv {Body Req Resp : Type}
    (validate : Body -> Validated Req) (handler : Req -> Handler Resp)
    (b : Body) (w : World) (resp : Resp) :
  answer (post validate handler b w) = Http200 resp ->
  exists r w', validate b = Valid r /\ handler r w = (Valid resp, w').
Proof.
  unfold answer. destruct (post validate handler b w) as [res w'] eqn:Hp.
  simpl. intros ->. apply post_Http200_inv in Hp.
  destruct Hp as (r & Hv & Hh). exists r, w'. auto.
Qed.

(** X5: the NER answer carries the model name of the request, "default"
    when the body gives none, and a processing time of zero. *)
Theorem ner_answer_echoes_model
    (b : NERSuggestionBody) (w : World) (resp : NERSuggestionResponse) :
  answer (post_ner b w) = Http200 resp ->
  nresp_model resp = with_default "default" (body_model b) /\
  nresp_processing_time_ms resp = 0%float.
Proof.
  intros H. apply answer_Http200_inv in H. destruct H as (r & w' & Hv & Hh).
  rewrite get_ner_suggestions_eq in Hh. injection Hh as <- _.
  destruct (NERSuggestionRequest_validate_Valid b r Hv)
    as (_ & _ & Hm & _).
  simpl. auto.
Qed.

Lemma ner_answer_echoes_model_witness :
  nresp_model (mkNERSuggestionResponse [] "biobert" 0%float)
  = with_default "default" (Some "biobert") /\
  nresp_processing_time_ms (mkNERSuggestionResponse [] "biobert" 0%float)
  = 0%float.
Proof.
  apply (ner_answer_echoes_model
           (mkNERSuggestionBody (Some "aspirin") (Some ["medication"])
              (Some "biobert") None None) world0).
  reflexivity.
Defined.

(** The value of a strategy is a name the validator reads back as that
    strategy, and a name the validator accepts is the value of the strategy
    it yields. *)
Theorem Strategy_round_trip (loc : string) :
  (forall s, Strategy_validate loc (Strategy_value s) = Valid s) /\
  (forall name s, Strategy_validate loc name = Valid s ->
     Strategy_value s = name).
Proof.
  split.
  - intros [| |]; reflexivity.
  - intros name s. unfold Strategy_validate.
    destruct (String.eqb_spec name "uncertainty") as [-> | _];
      [intros [= <-]; reflexivity |].
    destruct (String.eqb_spec name "diversity") as [-> | _];
      [intros [= <-]; reflexivity |].
    destruct (String.eqb_spec name "hybrid") as [-> | _];
      [intros [= <-]; reflexivity | discriminate].
Qed.

(** X6: [strategy_used] in an active-learning answer is the strategy name
    the body gave, "uncertainty" when it gave none; it is one of the three
    names, and [selection_scores] is empty. *)
Theorem strategy_used_is_requested
    (b : ActiveLearningBody) (w : World) (resp : ActiveLearningResponse) :
  answer (post_active_learning b w) = Http200 resp ->
  alresp_strategy_used resp = with_default "uncertainty" (body_strategy b) /\
  In (alresp_strategy_used resp) strategy_names /\
  alresp_selection_scores resp = [].
Proof.
  intros H. apply answer_Http200_inv in H. destruct H as (r & w' & Hv & Hh).
  rewrite select_tasks_for_annotation_eq in Hh. injection Hh as <- _.
  destruct (ActiveLearningRequest_validate_Valid b r Hv)
    as (_ & _ & Hs & _).
  simpl. repeat split; [exact Hs |].
  unfold strategy_names. destruct (al_strategy r); simpl; auto.
Qed.

Lemma strategy_used_is_requested_witness :
  alresp_strategy_used (mkActiveLearningResponse [] "hybrid" [])
  = with_default "uncertainty" (Some "hybrid") /\
  In (alresp_strategy_used (mkActiveLearningResponse [] "hybrid" []))
    strategy_names /\
  alresp_selection_scores (mkActiveLearningResponse [] "hybrid" []) = [].
Proof.
  apply (strategy_used_is_requested
           (mkActiveLearningBody (Some "project-123") (Some "user-123")
              (Some "hybrid") None) world0).
  reflexivity.
Defined.

(* ------------------------------------------------------------------ *)
(** ** What a rejection reports *)

Lemma not_valid_iff {A : Type} (v : Validated A) (P : Prop) :
  (is_valid v = true <-> P) -> (is_valid v = false <-> ~ P).
Proof.
  destruct (is_valid v); intros [H1 H2]; split; intros H;
    try discriminate; try reflexivity.
  - exfalso. apply H. apply H1. reflexivity.
  - intros HP. apply H2 in HP. discriminate.
Qed.







(* ------------------------------------------------------------------ *)
(** ** Building entities *)

Lemma unit_float_accepts (loc : string) (c : float) :
  in_unit_interval c -> float_ge_le loc 0 1 c = Valid c.
Proof. intros H. apply unit_float_Valid. auto. Qed.

Lemma unit_float_rejects (loc : string) (c : float) :
  outside_unit_interval c ->
  is_valid (float_ge_le loc 0 1 c) = false /\
  named (errors_of (float_ge_le loc 0 1 c)) = [loc].
Proof.
  intros H. apply outside_not_inside in H.
  apply (not_valid_iff _ _ (is_valid_unit_float loc c)) in H.
  rewrite named_float_ge_le, H. auto.
Qed.

Lemma Entity_new_given (id type : string) (start end_ : Z) (text : string)
    (c : float) (w : World) :
  Entity_new (Some id) type start end_ text c w
  = (Valid (mkEntity id type start end_ text) <*> float_ge_le "confidence" 0 1 c,
     w)%validated.
Proof. reflexivity. Qed.

Lemma Entity_new_drawn (type : string) (start end_ : Z) (text : string)
    (c : float) (w : World) :
  Entity_new None type start end_ text c w
  = (Valid (mkEntity ("suggestion-" ++ substring 0 8 (uuid_hex w (uuid_drawn w)))
              type start end_ text)
     <*> float_ge_le "confidence" 0 1 c,
     mkWorld (uuid_hex w) (S (uuid_drawn w)))%validated.
Proof. reflexivity. Qed.

Lemma substring_length (n : nat) (s : string) :
  String.length (substring 0 n s) = Nat.min n (String.length s).
Proof.
  revert s. induction n as [| n IH]; intros [| a s]; simpl; try reflexivity.
  rewrite IH. reflexivity.
Qed.

Lemma append_length (s t : string) :
  String.length (s ++ t) = (String.length s + String.length t)%nat.
Proof. induction s as [| a s IH]; simpl; [reflexivity | rewrite IH; reflexivity]. Qed.

Lemma append_cancel_l (p s t : string) : p ++ s = p ++ t -> s = t.
Proof.
  induction p as [| a p IH]; simpl; [auto |].
  intros [= H]. apply IH. exact H.
Qed.

(** X8: [Entity] checks its [confidence] and nothing else.  With a
    confidence within [[0,1]] the entity is built with the type, span, text
    and confidence given, whatever they are; with a confidence below 0 or
    above 1 construction fails and the report names [confidence] alone. *)
Theorem Entity_new_checks_only_confidence
    (id : option string) (type : string) (start end_ : Z) (text : string)
    (c : float) (w : World) :
  (in_unit_interval c ->
   exists i w',
     Entity_new id type start end_ text c w
     = (Valid (mkEntity i type start end_ text c), w')) /\
  (outside_unit_interval c ->
   is_valid (fst (Entity_new id type start end_ text c w)) = false /\
   named (errors_of (fst (Entity_new id type start end_ text c w)))
   = ["confidence"]).
Proof.
  split; intros Hc.
  - destruct id as [i |].
    + exists i, w. rewrite Entity_new_given, (unit_float_accepts _ c Hc).
      reflexivity.
    + eexists. eexists.
      rewrite Entity_new_drawn, (unit_float_accepts _ c Hc). reflexivity.
  - destruct (unit_float_rejects "confidence" c Hc) as [Hv Hn].
    destruct id as [i |];
      [rewrite Entity_new_given | rewrite Entity_new_drawn]; cbn [fst];
      rewrite is_valid_ap, errors_of_ap, named_app, Hv, Hn; split;
      reflexivity.
Qed.

Lemma Entity_new_checks_only_confidence_witness :
  (exists i w',
     Entity_new None "condition" 12 20 "diabetes" 0.9%float world0
     = (Valid (mkEntity i "condition" 12 20 "diabetes" 0.9%float), w')) /\
  (is_valid (fst (Entity_new None "condition" 12 20 "diabetes" 1.5%float
                    world0)) = false /\
   named (errors_of (fst (Entity_new None "condition" 12 20 "diabetes"
                            1.5%float world0)))
   = ["confidence"]).
Proof.
  split.
  - apply (Entity_new_checks_only_confidence None "condition" 12 20 "diabetes"
             0.9%float world0).
    split; reflexivity.
  - apply (Entity_new_checks_only_confidence None "condition" 12 20 "diabetes"
             1.5%float world0).
    right. reflexivity.
Defined.

(** X9: [Entity] does not enforce the span invariant: an entity whose
    [end] is not after its [start] is built all the same, and it satisfies
    the invariant against no text. *)
Theorem Entity_new_accepts_inverted_span
    (id : option string) (type : string) (start end_ : Z) (text : string)
    (c : float) (w : World) :
  end_ <= start ->
  in_unit_interval c ->
  exists e w',
    Entity_new id type start end_ text c w = (Valid e, w') /\
    forall t, ~ span_invariant t e.
Proof.
  intros Hspan Hc.
  destruct id as [i |].
  - eexists. exists w. split.
    + rewrite Entity_new_given, (unit_float_accepts _ c Hc). reflexivity.
    + intros t (_ & Hlt & _). simpl in Hlt. lia.
  - eexists. eexists. split.
    + rewrite Entity_new_drawn, (unit_float_accepts _ c Hc). reflexivity.
    + intros t (_ & Hlt & _). simpl in Hlt. lia.
Qed.

Lemma Entity_new_accepts_inverted_span_witness :
  exists e w',
    Entity_new (Some "e1") "condition" 20 12 "diabetes" 0.9%float world0
    = (Valid e, w') /\
    forall t, ~ span_invariant t e.
Proof.
  apply (Entity_new_accepts_inverted_span (Some "e1") "condition" 20 12
           "diabetes" 0.9%float world0).
  - lia.
  - split; reflexivity.
Defined.

(** X10: an identifier given to [Entity] is kept as it is and nothing is
    drawn; without one, exactly one uuid is drawn and the identifier is
    "suggestion-" followed by its first eight hex digits, 19 characters for
    a 32-digit uuid. *)
Theorem Entity_identifier
    (id : option string) (type : string) (start end_ : Z) (text : string)
    (c : float) (w w' : World) (e : Entity) :
  Entity_new id type start end_ text c w = (Valid e, w') ->
  match id with
  | Some i => entity_id e = i /\ w' = w
  | None =>
      entity_id e = "suggestion-" ++ substring 0 8 (uuid_hex w (uuid_drawn w)) /\
      uuid_drawn w' = S (uuid_drawn w) /\
      uuid_hex w' = uuid_hex w /\
      (String.length (uuid_hex w (uuid_drawn w)) = 32%nat ->
       String.length (entity_id e) = 19%nat)
  end.
Proof.
  destruct id as [i |].
  - rewrite Entity_new_given.
    destruct (float_ge_le "confidence" 0 1 c) as [c' | d]; simpl;
      [| discriminate].
    intros [= <- <-]. auto.
  - rewrite Entity_new_drawn.
    destruct (float_ge_le "confidence" 0 1 c) as [c' | d]; simpl;
      [| discriminate].
    intros [= <- <-].
    split; [reflexivity | split; [reflexivity | split; [reflexivity |]]].
    intros Hlen.
    change (String.length
              ("suggestion-" ++ substring 0 8 (uuid_hex w (uuid_drawn w)))
            = 19%nat).
    rewrite append_length, substring_length, Hlen. reflexivity.
Qed.

Lemma Entity_identifier_witness :
  entity_id (mkEntity "suggestion-01234567" "condition" 12 20 "diabetes"
               0.9%float)
  = "suggestion-" ++ substring 0 8 (uuid_hex world0 (uuid_drawn world0)) /\
  uuid_drawn (mkWorld (uuid_hex world0) 1) = S (uuid_drawn world0) /\
  uuid_hex (mkWorld (uuid_hex world0) 1) = uuid_hex world0 /\
  (String.length (uuid_hex world0 (uuid_drawn world0)) = 32%nat ->
   String.length
     (entity_id (mkEntity "suggestion-01234567" "condition" 12 20 "diabetes"
                   0.9%float)) = 19%nat).
Proof.
  apply (Entity_identifier None "condition" 12 20 "diabetes" 0.9%float world0
           (mkWorld (uuid_hex world0) 1)
           (mkEntity "suggestion-01234567" "condition" 12 20 "diabetes"
              0.9%float)).
  reflexivity.
Defined.

Lemma Entity_new_drawn_inv (type : string) (start end_ : Z) (text : string)
    (c : float) (w w' : World) (e : Entity) :
  Entity_new None type start end_ text c w = (Valid e, w') ->
  entity_id e = "suggestion-" ++ substring 0 8 (uuid_hex w (uuid_drawn w)) /\
  w' = mkWorld (uuid_hex w) (S (uuid_drawn w)).
Proof.
  rewrite Entity_new_drawn.
  destruct (float_ge_le "confidence" 0 1 c) as [c' | d]; simpl;
    [| discriminate].
  intros [= <- <-]. auto.
Qed.

(** X11: two entities built one after the other without identifiers get
    the same identifier exactly when the two uuids drawn agree on their
    first eight hex digits: identifiers are as distinct as those digits,
    not as the uuids. *)
Theorem default_identifiers_collide_iff
    (type1 type2 : string) (start1 end1 start2 end2 : Z)
    (text1 text2 : string) (c1 c2 : float) (w w1 w2 : World)
    (e1 e2 : Entity) :
  Entity_new None type1 start1 end1 text1 c1 w = (Valid e1, w1) ->
  Entity_new None type2 start2 end2 text2 c2 w1 = (Valid e2, w2) ->
  (entity_id e1 = entity_id e2 <->
   substring 0 8 (uuid_hex w (uuid_drawn w))
   = substring 0 8 (uuid_hex w (S (uuid_drawn w)))).
Proof.
  intros H1 H2.
  apply Entity_new_drawn_inv in H1. destruct H1 as [Hid1 ->].
  apply Entity_new_drawn_inv in H2. destruct H2 as [Hid2 _].
  cbn [uuid_hex uuid_drawn] in Hid2. rewrite Hid1, Hid2. split.
  - apply append_cancel_l.
  - intros ->. reflexivity.
Qed.

Lemma default_identifiers_collide_iff_witness :
  (entity_id (mkEntity "suggestion-deadbeef" "condition" 12 20 "diabetes"
                0.9%float)
   = entity_id (mkEntity "suggestion-deadbeef" "medication" 0 7 "aspirin"
                  0.8%float)
   <-> substring 0 8 (uuid_hex world_shared_prefix
                        (uuid_drawn world_shared_prefix))
       = substring 0 8 (uuid_hex world_shared_prefix
                          (S (uuid_drawn world_shared_prefix)))) /\
  (entity_id (mkEntity "suggestion-0a0a0a0a" "condition" 12 20 "diabetes"
                0.9%float)
   = entity_id (mkEntity "suggestion-1b1b1b1b" "medication" 0 7 "aspirin"
                  0.8%float)
   <-> substring 0 8 (uuid_hex world_distinct_prefix
                        (uuid_drawn world_distinct_prefix))
       = substring 0 8 (uuid_hex world_distinct_prefix
                          (S (uuid_drawn world_distinct_prefix)))).
Proof.
  split.
  - apply (default_identifiers_collide_iff "condition" "medication" 12 20 0 7
             "diabetes" "aspirin" 0.9%float 0.8%float world_shared_prefix
             (mkWorld (uuid_hex world_shared_prefix) 1)
             (mkWorld (uuid_hex world_shared_prefix) 2)); reflexivity.
  - apply (default_identifiers_collide_iff "condition" "medication" 12 20 0 7
             "diabetes" "aspirin" 0.9%float 0.8%float world_distinct_prefix
             (mkWorld (uuid_hex world_distinct_prefix) 1)
             (mkWorld (uuid_hex world_distinct_prefix) 2)); reflexivity.
Defined.

(* ------------------------------------------------------------------ *)
(** ** The quality response model *)

(** X12: [QualityPredictionResponse] checks both scores and nothing else.
    With [predicted_quality] and [confidence] within [[0,1]] the response
    is built with the very values given, whatever the risk factors are
    (duplicates included); with either score below 0 or above 1 it is not
    built; a response that was built carries the values given, unchanged. *)
Theorem QualityPredictionResponse_new_checks_scores
    (q c : float) (risk_factors : list string) :
  (in_unit_interval q -> in_unit_interval c ->
   QualityPredictionResponse_new q c risk_factors
   = Valid (mkQualityPredictionResponse q c risk_factors)) /\
  (outside_unit_interval q \/ outside_unit_interval c ->
   is_valid (QualityPredictionResponse_new q c risk_factors) = false) /\
  (forall r, QualityPredictionResponse_new q c risk_factors = Valid r ->
     r = mkQualityPredictionResponse q c risk_factors /\
     ~ outside_unit_interval q /\ ~ outside_unit_interval c).
Proof.
  unfold QualityPredictionResponse_new. repeat apply conj.
  - intros Hq Hc.
    rewrite (unit_float_accepts _ q Hq), (unit_float_accepts _ c Hc).
    reflexivity.
  - intros H. rewrite !is_valid_ap. cbn [is_valid].
    destruct H as [H | H].
    + destruct (unit_float_rejects "predicted_quality" q H) as [Hq _].
      rewrite Hq. reflexivity.
    + destruct (unit_float_rejects "confidence" c H) as [Hc _].
      rewrite Hc.
      destruct (is_valid (float_ge_le "predicted_quality" 0 1 q));
        reflexivity.
  - intros r Hr.
    apply ap_Valid_inv in Hr. destruct Hr as (g2 & rf & Hr & [= <-] & ->).
    apply ap_Valid_inv in Hr. destruct Hr as (g1 & c' & Hr & Hc & ->).
    apply ap_Valid_inv in Hr. destruct Hr as (g0 & q' & [= <-] & Hq & ->).
    apply unit_float_Valid in Hq, Hc.
    destruct Hq as [Hq ->], Hc as [Hc ->].
    split; [reflexivity | split]; intros Hout;
      apply (outside_not_inside _ Hout); assumption.
Qed.

Lemma QualityPredictionResponse_new_checks_scores_witness :
  QualityPredictionResponse_new 1%float 0%float ["low_agreement"; "low_agreement"]
  = Valid (mkQualityPredictionResponse 1%float 0%float
             ["low_agreement"; "low_agreement"]) /\
  is_valid (QualityPredictionResponse_new 1.5%float 0.7%float []) = false.
Proof.
  split.
  - apply (QualityPredictionResponse_new_checks_scores 1%float 0%float
             ["low_agreement"; "low_agreement"]); split; reflexivity.
  - apply (QualityPredictionResponse_new_checks_scores 1.5%float 0.7%float []).
    left. right. reflexivity.
Defined.
